(** * firestore-backup: the HTTP handler of [function.go]

    A shallow embedding of the cloud function that backs up or restores a
    Firestore database: the request record, its validation, the two methods
    that call the Firestore admin client, and the handler that parses the
    body, validates it and dispatches on the action.

    Go strings are byte sequences, so they are [string]s here; an [error] is
    represented by the text its [Error()] method returns, and a function
    returning [error] returns [option error] ([None] for [nil]). *)

From Stdlib Require Import String Ascii List ZArith Bool Lia.
Import ListNotations.
Open Scope string_scope.

(** ** Data model *)

Definition error := string.

(** [type backupRequest struct] (function.go, l. 19-24). *)
Record backupRequest : Type := {
  Action : string;
  Collections : list string;
  ProjectId : string;
  Bucket : string
}.

(** The two request messages of the admin API that the code fills in. *)
Module ExportDocumentsRequest.
Record t : Type := {
  Name : string;
  CollectionIds : list string;
  OutputUriPrefix : string
}.
End ExportDocumentsRequest.

Module ImportDocumentsRequest.
Record t : Type := {
  Name : string;
  CollectionIds : list string;
  InputUriPrefix : string
}.
End ImportDocumentsRequest.

(** [net/http] status codes used by the handler. *)
Definition StatusOK : Z := 200.
Definition StatusBadRequest : Z := 400.
Definition StatusInternalServerError : Z := 500.

(** ** Validation *)

(** [func (r *backupRequest) validate() error] (function.go, l. 121-143).
    [r.Action != "backup" && r.Action != "restore"] is kept as written. *)
Definition validate (r : backupRequest) : option error :=
  if ProjectId r =? "" then
    Some "project is required"
  else if Bucket r =? "" then
    Some "bucket is required"
  else if Action r =? "" then
    Some "action is required"
  else if negb (Action r =? "backup") && negb (Action r =? "restore") then
    Some "action must be either backup or restore"
  else if (Action r =? "backup") && (Bucket r =? "") then
    Some "bucket is required when action is backup"
  else
    None.

(** ** The handler's surroundings *)

(** Everything [function] calls outside this package, as the results those
    calls give: reading the body ([io.ReadAll]), decoding it
    ([json.Unmarshal] into a zero [backupRequest]), creating the admin
    client, submitting an export or import and waiting for the long-running
    operation a submission returned.  [inl] and [Some] carry an error. *)
Record World : Type := {
  io_ReadAll : error + string;
  json_Unmarshal : string -> error + backupRequest;
  apiv1_NewFirestoreAdminClient : option error;
  client_ExportDocuments : ExportDocumentsRequest.t -> option error;
  export_op_Wait : ExportDocumentsRequest.t -> option error;
  client_ImportDocuments : ImportDocumentsRequest.t -> option error;
  import_op_Wait : ImportDocumentsRequest.t -> option error
}.

(** A call to the external service that the handler made, with its result. *)
Inductive Call : Type :=
| CallNewClient (res : option error)
| CallExportDocuments (req : ExportDocumentsRequest.t) (res : option error)
| CallExportWait (res : option error)
| CallImportDocuments (req : ImportDocumentsRequest.t) (res : option error)
| CallImportWait (res : option error).

(** [http.ResponseWriter]: the status line is fixed by the first
    [WriteHeader], or as 200 by the first [Write] when there was none; a
    response nobody wrote to is sent as 200 with an empty body. *)
Record ResponseWriter : Type := {
  header : option Z;
  written : string
}.

Definition WriteHeader (code : Z) (w : ResponseWriter) : ResponseWriter :=
  match header w with
  | Some _ => w
  | None => {| header := Some code; written := written w |}
  end.

Definition Write (b : string) (w : ResponseWriter) : ResponseWriter :=
  {| header := Some (match header w with Some c => c | None => StatusOK end);
     written := written w ++ b |}.

Definition statusCode (w : ResponseWriter) : Z :=
  match header w with
  | Some c => c
  | None => StatusOK
  end.

(** The state a run threads: the response so far and the calls made so far,
    oldest first. *)
Record State : Type := {
  resp : ResponseWriter;
  calls : list Call
}.

Definition initial : State :=
  {| resp := {| header := None; written := "" |}; calls := [] |}.

(** *** A state monad over [State] *)

Definition M (A : Type) : Type := State -> A * State.

Definition ret {A : Type} (a : A) : M A := fun s => (a, s).

Definition bind {A B : Type} (m : M A) (k : A -> M B) : M B :=
  fun s => let (a, s') := m s in k a s'.

Declare Scope handler_scope.
Delimit Scope handler_scope with handler.
Notation "x <- m ;; k" := (bind m (fun x => k))
  (at level 61, m at next level, right associativity) : handler_scope.
Notation "m ;; k" := (bind m (fun _ => k))
  (at level 61, right associativity) : handler_scope.

Definition respond (f : ResponseWriter -> ResponseWriter) : M unit :=
  fun s => (tt, {| resp := f (resp s); calls := calls s |}).

Definition record (c : Call) : M unit :=
  fun s => (tt, {| resp := resp s; calls := calls s ++ [c] |}).

(** [w.WriteHeader(code); w.Write([]byte(err.Error())); return] *)
Definition fail (code : Z) (err : error) : M unit :=
  (respond (WriteHeader code) ;; respond (Write err))%handler.

(** ** The two actions and the handler *)

Section Handler.

Variable W : World.

Local Open Scope handler_scope.

Definition NewFirestoreAdminClient : M (option error) :=
  let res := apiv1_NewFirestoreAdminClient W in
  record (CallNewClient res) ;; ret res.

Definition ExportDocuments (req : ExportDocumentsRequest.t) : M (option error) :=
  let res := client_ExportDocuments W req in
  record (CallExportDocuments req res) ;; ret res.

Definition ExportWait (req : ExportDocumentsRequest.t) : M (option error) :=
  let res := export_op_Wait W req in
  record (CallExportWait res) ;; ret res.

Definition ImportDocuments (req : ImportDocumentsRequest.t) : M (option error) :=
  let res := client_ImportDocuments W req in
  record (CallImportDocuments req res) ;; ret res.

Definition ImportWait (req : ImportDocumentsRequest.t) : M (option error) :=
  let res := import_op_Wait W req in
  record (CallImportWait res) ;; ret res.

(** [func (r *backupRequest) backup(ctx, client) error]
    (function.go, l. 81-96). *)
Definition backup (r : backupRequest) : M (option error) :=
  let req :=
    {| ExportDocumentsRequest.Name :=
         "projects/" ++ ProjectId r ++ "/databases/(default)";
       ExportDocumentsRequest.CollectionIds := Collections r;
       ExportDocumentsRequest.OutputUriPrefix :=
         "gs://" ++ Bucket r ++ "/firestore-backup" |} in
  err <- ExportDocuments req ;;
  match err with
  | Some e => ret (Some ("error backing up firestore database: " ++ e))
  | None =>
    err <- ExportWait req ;;
    match err with
    | Some e => ret (Some ("error backing up firestore database: " ++ e))
    | None => ret None
    end
  end.

(** [func (r *backupRequest) restore(ctx, client) error]
    (function.go, l. 103-118). *)
Definition restore (r : backupRequest) : M (option error) :=
  let req :=
    {| ImportDocumentsRequest.Name :=
         "projects/" ++ ProjectId r ++ "/databases/(default)";
       ImportDocumentsRequest.CollectionIds := Collections r;
       ImportDocumentsRequest.InputUriPrefix :=
         "gs://" ++ Bucket r ++ "/firestore-backup" |} in
  err <- ImportDocuments req ;;
  match err with
  | Some e => ret (Some ("error restoring firestore database: " ++ e))
  | None =>
    err <- ImportWait req ;;
    match err with
    | Some e => ret (Some ("error backing up firestore database: " ++ e))
    | None => ret None
    end
  end.

(** [func function(w http.ResponseWriter, r *http.Request)]
    (function.go, l. 30-73).  Each early [return] ends its branch; the
    [switch] on [req.Action] has the cases ["back"] and ["restore"] and no
    default. *)
Definition function : M unit :=
  match io_ReadAll W with
  | inl err => fail StatusInternalServerError err
  | inr body =>
    match json_Unmarshal W body with
    | inl err => fail StatusInternalServerError err
    | inr req =>
      match validate req with
      | Some err => fail StatusBadRequest err
      | None =>
        cerr <- NewFirestoreAdminClient ;;
        match cerr with
        | Some err => fail StatusInternalServerError err
        | None =>
          if Action req =? "back" then
            err <- backup req ;;
            match err with
            | Some e => fail StatusInternalServerError e
            | None => ret tt
            end
          else if Action req =? "restore" then
            err <- restore req ;;
            match err with
            | Some e => fail StatusInternalServerError e
            | None => ret tt
            end
          else
            ret tt
        end
      end
    end
  end.

(** The state in which one invocation of the handler ends. *)
Definition run : State := snd (function initial).

End Handler.

(** What a finished run shows to the outside. *)
Definition status (s : State) : Z := statusCode (resp s).
Definition body (s : State) : string := written (resp s).

(** The export requests and the import requests submitted during a run. *)
Fixpoint exports (cs : list Call) : list ExportDocumentsRequest.t :=
  match cs with
  | [] => []
  | CallExportDocuments req _ :: cs' => req :: exports cs'
  | _ :: cs' => exports cs'
  end.

Fixpoint imports (cs : list Call) : list ImportDocumentsRequest.t :=
  match cs with
  | [] => []
  | CallImportDocuments req _ :: cs' => req :: imports cs'
  | _ :: cs' => imports cs'
  end.

(** The resource name and the storage URI the spec gives for project [p]
    and bucket [b]. *)
Definition resourceName (p : string) : string :=
  "projects/" ++ p ++ "/databases/(default)".
Definition backupUri (b : string) : string :=
  "gs://" ++ b ++ "/firestore-backup".

(** The request messages [backup] and [restore] build from a record. *)
Definition exportRequest (r : backupRequest) : ExportDocumentsRequest.t :=
  {| ExportDocumentsRequest.Name := resourceName (ProjectId r);
     ExportDocumentsRequest.CollectionIds := Collections r;
     ExportDocumentsRequest.OutputUriPrefix := backupUri (Bucket r) |}.

Definition importRequest (r : backupRequest) : ImportDocumentsRequest.t :=
  {| ImportDocumentsRequest.Name := resourceName (ProjectId r);
     ImportDocumentsRequest.CollectionIds := Collections r;
     ImportDocumentsRequest.InputUriPrefix := backupUri (Bucket r) |}.

(** The result a recorded call had. *)
Definition call_result (c : Call) : option error :=
  match c with
  | CallNewClient res => res
  | CallExportDocuments _ res => res
  | CallExportWait res => res
  | CallImportDocuments _ res => res
  | CallImportWait res => res
  end.

(** The export and import traffic of a run: every call but the creation of
    the client. *)
Definition is_transfer (c : Call) : bool :=
  match c with
  | CallNewClient _ => false
  | _ => true
  end.

Definition transfers (cs : list Call) : list Call := filter is_transfer cs.

(** [contains e s]: the text [e] occurs in [s]. *)
Definition contains (e s : string) : Prop :=
  exists pre post, s = pre ++ e ++ post.

(** A response that one [WriteHeader] and one [Write] produced, after the
    calls [cs]. *)
Definition failed (code : Z) (msg : string) (cs : list Call) : State :=
  {| resp := {| header := Some code; written := msg |}; calls := cs |}.

(** What "the action is fully delegated" asks of a run, in the spec's words:
    the operation of the action is submitted once with the request built
    from the record, and awaited when the submission succeeded. *)
Definition delegation (W : World) (r : backupRequest) : list Call :=
  if Action r =? "backup" then
    let q := exportRequest r in
    match client_ExportDocuments W q with
    | Some e => [CallExportDocuments q (Some e)]
    | None => [CallExportDocuments q None; CallExportWait (export_op_Wait W q)]
    end
  else if Action r =? "restore" then
    let q := importRequest r in
    match client_ImportDocuments W q with
    | Some e => [CallImportDocuments q (Some e)]
    | None => [CallImportDocuments q None; CallImportWait (import_op_Wait W q)]
    end
  else [].

(** The three ways the spec lists for the handler to abort: the body cannot
    be read, it cannot be decoded, or the record fails validation. *)
Definition aborts_early (W : World) : Prop :=
  match io_ReadAll W with
  | inl _ => True
  | inr b =>
    match json_Unmarshal W b with
    | inl _ => True
    | inr req => validate req <> None
    end
  end.

(** Atomicity as the spec words it: a run either belongs to a validated
    request and carries the whole delegation, or aborted early and carries
    no export or import call. *)
Definition atomic_as_specified (W : World) : Prop :=
  (exists b req,
      io_ReadAll W = inr b /\ json_Unmarshal W b = inr req /\
      validate req = None /\
      transfers (calls (run W)) = delegation W req)
  \/ (aborts_early W /\ transfers (calls (run W)) = []).

(** ** Concrete surroundings *)

Definition dq : string := String (ascii_of_nat 34) "".
Definition quoted (s : string) : string := dq ++ s ++ dq.

(** The body [{"action":A,"collections":["users","orders"],"project_id":P,"bucket":B}]. *)
Definition requestBody (a p b : string) : string :=
  "{" ++ quoted "action" ++ ":" ++ quoted a ++ ","
      ++ quoted "collections" ++ ":[" ++ quoted "users" ++ "," ++ quoted "orders" ++ "],"
      ++ quoted "project_id" ++ ":" ++ quoted p ++ ","
      ++ quoted "bucket" ++ ":" ++ quoted b ++ "}".

Definition request (a p b : string) : backupRequest :=
  {| Action := a; Collections := ["users"; "orders"]; ProjectId := p; Bucket := b |}.

(** Surroundings in which the body of [request a p b] arrives and decodes,
    and the external service answers as given. *)
Definition serving (a p b : string)
    (client submitE waitE submitI waitI : option error) : World :=
  {| io_ReadAll := inr (requestBody a p b);
     json_Unmarshal := fun x =>
       if x =? requestBody a p b then inr (request a p b)
       else inl "invalid character";
     apiv1_NewFirestoreAdminClient := client;
     client_ExportDocuments := fun _ => submitE;
     export_op_Wait := fun _ => waitE;
     client_ImportDocuments := fun _ => submitI;
     import_op_Wait := fun _ => waitI |}.

(** Surroundings in which the body cannot be read, and in which it arrives
    but is not JSON. *)
Definition unreadable (e : error) : World :=
  {| io_ReadAll := inl e;
     json_Unmarshal := fun _ => inl "unexpected end of JSON input";
     apiv1_NewFirestoreAdminClient := None;
     client_ExportDocuments := fun _ => None;
     export_op_Wait := fun _ => None;
     client_ImportDocuments := fun _ => None;
     import_op_Wait := fun _ => None |}.

Definition undecodable (b : string) (e : error) : World :=
  {| io_ReadAll := inr b;
     json_Unmarshal := fun _ => inl e;
     apiv1_NewFirestoreAdminClient := None;
     client_ExportDocuments := fun _ => None;
     export_op_Wait := fun _ => None;
     client_ImportDocuments := fun _ => None;
     import_op_Wait := fun _ => None |}.

(** ** The runs of the handler *)

(** Every way an invocation can end, by what the surroundings answered.
    [run_outcome] below shows that [run] always ends in one of them. *)
Inductive Outcome (W : World) : State -> Prop :=
| BodyUnread e :
    io_ReadAll W = inl e ->
    Outcome W (failed StatusInternalServerError e [])
| BodyUndecoded b e :
    io_ReadAll W = inr b -> json_Unmarshal W b = inl e ->
    Outcome W (failed StatusInternalServerError e [])
| Rejected b req e :
    io_ReadAll W = inr b -> json_Unmarshal W b = inr req ->
    validate req = Some e ->
    Outcome W (failed StatusBadRequest e [])
| NoClient b req e :
    io_ReadAll W = inr b -> json_Unmarshal W b = inr req ->
    validate req = None ->
    apiv1_NewFirestoreAdminClient W = Some e ->
    Outcome W (failed StatusInternalServerError e [CallNewClient (Some e)])
| FellThrough b req :
    io_ReadAll W = inr b -> json_Unmarshal W b = inr req ->
    validate req = None ->
    apiv1_NewFirestoreAdminClient W = None ->
    Action req = "backup" ->
    Outcome W {| resp := resp initial; calls := [CallNewClient None] |}
| ImportRefused b req e :
    io_ReadAll W = inr b -> json_Unmarshal W b = inr req ->
    validate req = None ->
    apiv1_NewFirestoreAdminClient W = None ->
    Action req = "restore" ->
    client_ImportDocuments W (importRequest req) = Some e ->
    Outcome W
      (failed StatusInternalServerError
         ("error restoring firestore database: " ++ e)
         [CallNewClient None; CallImportDocuments (importRequest req) (Some e)])
| ImportWaitFailed b req e :
    io_ReadAll W = inr b -> json_Unmarshal W b = inr req ->
    validate req = None ->
    apiv1_NewFirestoreAdminClient W = None ->
    Action req = "restore" ->
    client_ImportDocuments W (importRequest req) = None ->
    import_op_Wait W (importRequest req) = Some e ->
    Outcome W
      (failed StatusInternalServerError
         ("error backing up firestore database: " ++ e)
         [CallNewClient None; CallImportDocuments (importRequest req) None;
          CallImportWait (Some e)])
| Restored b req :
    io_ReadAll W = inr b -> json_Unmarshal W b = inr req ->
    validate req = None ->
    apiv1_NewFirestoreAdminClient W = None ->
    Action req = "restore" ->
    client_ImportDocuments W (importRequest req) = None ->
    import_op_Wait W (importRequest req) = None ->
    Outcome W
      {| resp := resp initial;
         calls := [CallNewClient None; CallImportDocuments (importRequest req) None;
                   CallImportWait None] |}.

(** * Properties *)

(** ** Validation *)

Lemma validate_accepts (r : backupRequest) :
  validate r = None ->
  ProjectId r <> "" /\ Bucket r <> "" /\
  (Action r = "backup" \/ Action r = "restore").
Proof.
  unfold validate.
  destruct (ProjectId r =? "") eqn:Hp; [discriminate|].
  destruct (Bucket r =? "") eqn:Hb; [discriminate|].
  destruct (Action r =? "") eqn:Ha; [discriminate|].
  destruct (Action r =? "backup") eqn:Hbk; cbn.
  - intros _. apply String.eqb_neq in Hp, Hb. apply String.eqb_eq in Hbk. auto.
  - destruct (Action r =? "restore") eqn:Hrs; cbn; [|discriminate].
    intros _. apply String.eqb_neq in Hp, Hb. apply String.eqb_eq in Hrs. auto.
Qed.

Lemma validate_complete (r : backupRequest) :
  ProjectId r <> "" -> Bucket r <> "" ->
  Action r = "backup" \/ Action r = "restore" ->
  validate r = None.
Proof.
  intros Hp Hb Ha. unfold validate.
  apply String.eqb_neq in Hp, Hb. rewrite Hp, Hb.
  destruct Ha as [-> | ->]; reflexivity.
Qed.

(** ** The two methods *)

(** What [backup] returns and records, from any state. *)
Lemma backup_spec (W : World) (r : backupRequest) (s : State) :
  backup W r s =
  match client_ExportDocuments W (exportRequest r) with
  | Some e =>
      (Some ("error backing up firestore database: " ++ e),
       {| resp := resp s;
          calls := (calls s ++ [CallExportDocuments (exportRequest r) (Some e)]) |})
  | None =>
      (match export_op_Wait W (exportRequest r) with
       | Some e => Some ("error backing up firestore database: " ++ e)
       | None => None
       end,
       {| resp := resp s;
          calls := (calls s ++ [CallExportDocuments (exportRequest r) None])
                     ++ [CallExportWait (export_op_Wait W (exportRequest r))] |})
  end.
Proof.
  unfold backup, ExportDocuments, ExportWait, bind, record, ret.
  fold (resourceName (ProjectId r)). fold (backupUri (Bucket r)).
  fold (exportRequest r).
  destruct (client_ExportDocuments W (exportRequest r)) as [e|]; cbn; [reflexivity|].
  destruct (export_op_Wait W (exportRequest r)); reflexivity.
Qed.

(** What [restore] returns and records, from any state. *)
Lemma restore_spec (W : World) (r : backupRequest) (s : State) :
  restore W r s =
  match client_ImportDocuments W (importRequest r) with
  | Some e =>
      (Some ("error restoring firestore database: " ++ e),
       {| resp := resp s;
          calls := (calls s ++ [CallImportDocuments (importRequest r) (Some e)]) |})
  | None =>
      (match import_op_Wait W (importRequest r) with
       | Some e => Some ("error backing up firestore database: " ++ e)
       | None => None
       end,
       {| resp := resp s;
          calls := (calls s ++ [CallImportDocuments (importRequest r) None])
                     ++ [CallImportWait (import_op_Wait W (importRequest r))] |})
  end.
Proof.
  unfold restore, ImportDocuments, ImportWait, bind, record, ret.
  fold (resourceName (ProjectId r)). fold (backupUri (Bucket r)).
  fold (importRequest r).
  destruct (client_ImportDocuments W (importRequest r)) as [e|]; cbn; [reflexivity|].
  destruct (import_op_Wait W (importRequest r)); reflexivity.
Qed.

(** ** Every run ends in one of the outcomes *)

Lemma run_outcome (W : World) : Outcome W (run W).
Proof.
  unfold run, function.
  destruct (io_ReadAll W) as [e|b] eqn:Hread.
  { cbn. now apply BodyUnread. }
  destruct (json_Unmarshal W b) as [e|req] eqn:Hparse.
  { cbn. now apply BodyUndecoded with b. }
  destruct (validate req) as [e|] eqn:Hval.
  { cbn. now apply Rejected with b req. }
  unfold bind at 1. unfold NewFirestoreAdminClient, bind, record, ret.
  destruct (apiv1_NewFirestoreAdminClient W) as [e|] eqn:Hclient.
  { cbn. now apply NoClient with b req. }
  destruct (validate_accepts _ Hval) as (_ & _ & [Ha | Ha]).
  - rewrite Ha. cbn. now apply FellThrough with b req.
  - rewrite Ha. cbn -[restore]. rewrite restore_spec.
    destruct (client_ImportDocuments W (importRequest req)) as [e|] eqn:Hsub.
    { cbn. now apply ImportRefused with b. }
    destruct (import_op_Wait W (importRequest req)) as [e|] eqn:Hwait.
    { cbn. now apply ImportWaitFailed with b. }
    cbn. now apply Restored with b.
Qed.

(** Two facts of one run name the same body and the same record. *)
Ltac same_request :=
  repeat match goal with
  | H1 : io_ReadAll ?W = inr ?b1, H2 : io_ReadAll ?W = inr ?b2 |- _ =>
      assert (b1 = b2) by congruence; subst b1; clear H1
  | H1 : json_Unmarshal ?W ?b = inr ?r1, H2 : json_Unmarshal ?W ?b = inr ?r2 |- _ =>
      assert (r1 = r2) by congruence; subst r1; clear H1
  end.

(** Case analysis on how the run of [W] ended; cases that contradict what is
    known of [W] are closed. *)
Ltac by_outcome W :=
  destruct (run_outcome W); same_request; try congruence.

Lemma append_empty_r (s : string) : s ++ "" = s.
Proof. induction s as [|a s IH]; cbn; [reflexivity | now rewrite IH]. Qed.

Lemma contains_self (e : string) : contains e e.
Proof. exists "", "". cbn. now rewrite append_empty_r. Qed.

Lemma contains_suffix (p e : string) : contains e (p ++ e).
Proof. exists p, "". now rewrite append_empty_r. Qed.

(** ** The dispatch on a validated backup request *)

(** C1 (the code departs from the claim): a request that passes validation
    with action "backup" never reaches the export operation.  The handler's
    switch tests the action against "back", which no validated request
    carries, so the run submits no export at all, where the claim asks for
    exactly one. *)
Theorem valid_backup_request_exports_nothing
    (W : World) (b : string) (req : backupRequest) :
  io_ReadAll W = inr b -> json_Unmarshal W b = inr req ->
  validate req = None -> Action req = "backup" ->
  exports (calls (run W)) = [].
Proof.
  intros Hread Hparse Hval Hact.
  by_outcome W; reflexivity.
Qed.

Lemma valid_backup_request_exports_nothing_witness :
  let W := serving "backup" "my-project" "my-bucket" None None None None None in
  validate (request "backup" "my-project" "my-bucket") = None /\
  exports (calls (run W)) = [].
Proof.
  split; [reflexivity|].
  apply (valid_backup_request_exports_nothing
           (serving "backup" "my-project" "my-bucket" None None None None None)
           (requestBody "backup" "my-project" "my-bucket")
           (request "backup" "my-project" "my-bucket"));
    reflexivity.
Defined.

(** C2 (the code departs from the claim): a request accepted by [validate]
    with action "backup" is handled by neither branch of the switch.  Once
    the client exists the run ends in the silent fall-through: nothing is
    written to the response, which is therefore 200 with an empty body, and
    the creation of the client is the only call made. *)
Theorem valid_backup_request_falls_through
    (W : World) (b : string) (req : backupRequest) :
  io_ReadAll W = inr b -> json_Unmarshal W b = inr req ->
  validate req = None -> Action req = "backup" ->
  apiv1_NewFirestoreAdminClient W = None ->
  run W = {| resp := {| header := None; written := "" |};
             calls := [CallNewClient None] |}
  /\ status (run W) = 200%Z /\ body (run W) = "".
Proof.
  intros Hread Hparse Hval Hact Hclient.
  by_outcome W. repeat split.
Qed.

Lemma valid_backup_request_falls_through_witness :
  let W := serving "backup" "my-project" "my-bucket" None None None None None in
  validate (request "backup" "my-project" "my-bucket") = None /\
  run W = {| resp := {| header := None; written := "" |};
             calls := [CallNewClient None] |} /\
  status (run W) = 200%Z /\ body (run W) = "".
Proof.
  split; [reflexivity|].
  apply (valid_backup_request_falls_through
           (serving "backup" "my-project" "my-bucket" None None None None None)
           (requestBody "backup" "my-project" "my-bucket")
           (request "backup" "my-project" "my-bucket"));
    reflexivity.
Defined.

(** ** Restore *)




(** ** Rejected requests *)

(** The message [validate] gives for the first missing field, in the order
    the checks are made. *)
Lemma validate_missing (r : backupRequest) :
  ProjectId r = "" \/ Bucket r = "" \/ Action r = "" ->
  validate r =
    Some (if ProjectId r =? "" then "project is required"
          else if Bucket r =? "" then "bucket is required"
          else "action is required").
Proof.
  intros H. unfold validate.
  destruct (ProjectId r =? "") eqn:Hp; [reflexivity|].
  destruct (Bucket r =? "") eqn:Hb; [reflexivity|].
  destruct (Action r =? "") eqn:Ha; [reflexivity|].
  apply String.eqb_neq in Hp, Hb, Ha. tauto.
Qed.

(** C4: when the parsed request has an empty project identifier, bucket or
    action, the handler answers 400 with the message that names the first
    missing field (project, then bucket, then action) and makes no external
    call. *)
Theorem missing_field_is_bad_request
    (W : World) (b : string) (req : backupRequest) :
  io_ReadAll W = inr b -> json_Unmarshal W b = inr req ->
  ProjectId req = "" \/ Bucket req = "" \/ Action req = "" ->
  status (run W) = 400%Z
  /\ body (run W) =
       (if ProjectId req =? "" then "project is required"
        else if Bucket req =? "" then "bucket is required"
        else "action is required")
  /\ calls (run W) = [].
Proof.
  intros Hread Hparse Hmiss.
  pose proof (validate_missing req Hmiss) as Hval.
  by_outcome W.
  repeat split. cbn. congruence.
Qed.

Lemma missing_field_is_bad_request_witness :
  (let W := serving "backup" "" "" None None None None None in
   status (run W) = 400%Z /\ body (run W) = "project is required"
   /\ calls (run W) = [])
  /\ (let W := serving "backup" "my-project" "" None None None None None in
      status (run W) = 400%Z /\ body (run W) = "bucket is required"
      /\ calls (run W) = [])
  /\ (let W := serving "" "my-project" "my-bucket" None None None None None in
      status (run W) = 400%Z /\ body (run W) = "action is required"
      /\ calls (run W) = []).
Proof.
  split; [|split].
  - apply (missing_field_is_bad_request
             (serving "backup" "" "" None None None None None)
             (requestBody "backup" "" "") (request "backup" "" ""));
      [reflexivity | reflexivity | left; reflexivity].
  - apply (missing_field_is_bad_request
             (serving "backup" "my-project" "" None None None None None)
             (requestBody "backup" "my-project" "")
             (request "backup" "my-project" ""));
      [reflexivity | reflexivity | right; left; reflexivity].
  - apply (missing_field_is_bad_request
             (serving "" "my-project" "my-bucket" None None None None None)
             (requestBody "" "my-project" "my-bucket")
             (request "" "my-project" "my-bucket"));
      [reflexivity | reflexivity | right; right; reflexivity].
Defined.

(** C5: when the parsed request has a non-empty action that is neither
    "backup" nor "restore", the handler answers 400 with a message of
    [validate] and makes no external call; the message is "action must be
    either backup or restore" unless the project or the bucket is missing,
    which is reported first. *)
Theorem unknown_action_is_bad_request
    (W : World) (b : string) (req : backupRequest) :
  io_ReadAll W = inr b -> json_Unmarshal W b = inr req ->
  Action req <> "" -> Action req <> "backup" -> Action req <> "restore" ->
  status (run W) = 400%Z
  /\ body (run W) =
       (if ProjectId req =? "" then "project is required"
        else if Bucket req =? "" then "bucket is required"
        else "action must be either backup or restore")
  /\ calls (run W) = [].
Proof.
  intros Hread Hparse Hne Hbk Hrs.
  assert (Hval : validate req =
                 Some (if ProjectId req =? "" then "project is required"
                       else if Bucket req =? "" then "bucket is required"
                       else "action must be either backup or restore")).
  { unfold validate.
    apply String.eqb_neq in Hne, Hbk, Hrs. rewrite Hne, Hbk, Hrs.
    destruct (ProjectId req =? ""); [reflexivity|].
    destruct (Bucket req =? ""); reflexivity. }
  by_outcome W.
  repeat split. cbn. congruence.
Qed.

Lemma unknown_action_is_bad_request_witness :
  let W := serving "back" "my-project" "my-bucket" None None None None None in
  status (run W) = 400%Z
  /\ body (run W) = "action must be either backup or restore"
  /\ calls (run W) = [].
Proof.
  apply (unknown_action_is_bad_request
           (serving "back" "my-project" "my-bucket" None None None None None)
           (requestBody "back" "my-project" "my-bucket")
           (request "back" "my-project" "my-bucket"));
    [reflexivity | reflexivity | discriminate | discriminate | discriminate].
Defined.

(** ** Bodies that cannot be read or decoded *)

(** C6: when reading the body fails, or the body does not decode into the
    request record, the handler answers 500 with the text of that error; the
    run ends there, with no call made, whatever validation would have said
    of any record. *)
Theorem unusable_body_is_internal_error (W : World) (e : error) :
  io_ReadAll W = inl e \/
  (exists b, io_ReadAll W = inr b /\ json_Unmarshal W b = inl e) ->
  run W = failed StatusInternalServerError e []
  /\ status (run W) = 500%Z /\ body (run W) = e /\ calls (run W) = [].
Proof.
  intros [Hread | (b & Hread & Hparse)]; by_outcome W;
    repeat split; cbn; congruence.
Qed.

Lemma unusable_body_is_internal_error_witness :
  (let W := unreadable "unexpected EOF" in
   run W = failed StatusInternalServerError "unexpected EOF" []
   /\ status (run W) = 500%Z /\ body (run W) = "unexpected EOF"
   /\ calls (run W) = [])
  /\ (let W := undecodable "{" "unexpected end of JSON input" in
      run W = failed StatusInternalServerError "unexpected end of JSON input" []
      /\ status (run W) = 500%Z
      /\ body (run W) = "unexpected end of JSON input"
      /\ calls (run W) = []).
Proof.
  split.
  - apply (unusable_body_is_internal_error (unreadable "unexpected EOF")).
    left. reflexivity.
  - apply (unusable_body_is_internal_error
             (undecodable "{" "unexpected end of JSON input")).
    right. exists "{". split; reflexivity.
Defined.

(** ** Failures of the external service *)

(** [backup] turns a failed submission or a failed wait into an error that
    ends with the text of the failure. *)
Lemma backup_failure_text (W : World) (r : backupRequest) (s : State) (c : Call) (e : error) :
  In c (skipn (length (calls s)) (calls (snd (backup W r s)))) ->
  call_result c = Some e ->
  fst (backup W r s) = Some ("error backing up firestore database: " ++ e).
Proof.
  rewrite backup_spec.
  destruct (client_ExportDocuments W (exportRequest r)) as [e1|] eqn:Hsub; cbn.
  - rewrite skipn_app, skipn_all, Nat.sub_diag. cbn.
    intros [<- | []]. cbn. congruence.
  - rewrite <- app_assoc, skipn_app, skipn_all, Nat.sub_diag. cbn.
    intros [<- | [<- | []]]; cbn; [discriminate|].
    intros ->. reflexivity.
Qed.

(** A call that the handler made and that failed (the creation of the
    client, the submission of an import or the wait for it) gives 500 with
    the text of the failure inside the body.  This says nothing of an
    export: a run never makes one, as the next theorem shows. *)
Theorem external_failure_is_internal_error
    (W : World) (b : string) (req : backupRequest) (c : Call) (e : error) :
  io_ReadAll W = inr b -> json_Unmarshal W b = inr req ->
  validate req = None ->
  In c (calls (run W)) -> call_result c = Some e ->
  status (run W) = 500%Z /\ contains e (body (run W)).
Proof.
  intros Hread Hparse Hval Hin Hres. revert Hin.
  by_outcome W; intros Hin; cbn in Hin;
    repeat (destruct Hin as [<- | Hin]); try contradiction;
    cbn in Hres; try discriminate; injection Hres as <-;
    (split; [reflexivity|]); unfold body, failed; cbn [resp written].
  - apply contains_self.
  - apply contains_suffix.
  - apply contains_suffix.
Qed.

Lemma external_failure_is_internal_error_witness :
  (let W := serving "restore" "my-project" "my-bucket"
              None None None (Some "permission denied") None in
   status (run W) = 500%Z /\ contains "permission denied" (body (run W)))
  /\ (let W := serving "restore" "my-project" "my-bucket"
                 None None None None (Some "deadline exceeded") in
      status (run W) = 500%Z /\ contains "deadline exceeded" (body (run W))).
Proof.
  split.
  - apply (external_failure_is_internal_error
             (serving "restore" "my-project" "my-bucket"
                None None None (Some "permission denied") None)
             (requestBody "restore" "my-project" "my-bucket")
             (request "restore" "my-project" "my-bucket")
             (CallImportDocuments
                     (importRequest (request "restore" "my-project" "my-bucket"))
                     (Some "permission denied")));
      [reflexivity | reflexivity | reflexivity | | reflexivity].
    vm_compute. right. left. reflexivity.
  - apply (external_failure_is_internal_error
             (serving "restore" "my-project" "my-bucket"
                None None None None (Some "deadline exceeded"))
             (requestBody "restore" "my-project" "my-bucket")
             (request "restore" "my-project" "my-bucket")
             (CallImportWait (Some "deadline exceeded")));
      [reflexivity | reflexivity | reflexivity | | reflexivity].
    vm_compute. right. right. left. reflexivity.
Defined.

(** C7 (the code departs from the claim): for a backup request that passes
    validation and whose client is created, a failure of the export, at
    submission or at the wait, is not reported.  [backup] would return
    "error backing up firestore database: " followed by the failure, but
    the switch tests the action against "back" and never calls it: the
    handler answers 200 with an empty body, where the claim asks for 500
    with the text of the failure, and the creation of the client is the only
    call of the run. *)
Theorem failed_export_is_answered_200
    (W : World) (b : string) (req : backupRequest) (e : error) :
  io_ReadAll W = inr b -> json_Unmarshal W b = inr req ->
  validate req = None -> Action req = "backup" ->
  apiv1_NewFirestoreAdminClient W = None ->
  client_ExportDocuments W (exportRequest req) = Some e \/
  (client_ExportDocuments W (exportRequest req) = None /\
   export_op_Wait W (exportRequest req) = Some e) ->
  (forall s, fst (backup W req s) =
             Some ("error backing up firestore database: " ++ e))
  /\ status (run W) = 200%Z /\ body (run W) = ""
  /\ calls (run W) = [CallNewClient None].
Proof.
  intros Hread Hparse Hval Hact Hclient Hfail. split.
  - intros s. rewrite backup_spec.
    destruct Hfail as [Hsub | [Hsub Hwait]].
    + rewrite Hsub. reflexivity.
    + rewrite Hsub, Hwait. reflexivity.
  - by_outcome W. repeat split.
Qed.

Lemma failed_export_is_answered_200_witness :
  (let W := serving "backup" "my-project" "my-bucket"
              None (Some "permission denied") None None None in
   (forall s, fst (backup W (request "backup" "my-project" "my-bucket") s) =
              Some "error backing up firestore database: permission denied")
   /\ status (run W) = 200%Z /\ body (run W) = ""
   /\ calls (run W) = [CallNewClient None])
  /\ (let W := serving "backup" "my-project" "my-bucket"
                 None None (Some "deadline exceeded") None None in
      (forall s, fst (backup W (request "backup" "my-project" "my-bucket") s) =
                 Some "error backing up firestore database: deadline exceeded")
      /\ status (run W) = 200%Z /\ body (run W) = ""
      /\ calls (run W) = [CallNewClient None]).
Proof.
  split.
  - apply (failed_export_is_answered_200
             (serving "backup" "my-project" "my-bucket"
                None (Some "permission denied") None None None)
             (requestBody "backup" "my-project" "my-bucket")
             (request "backup" "my-project" "my-bucket")
             "permission denied");
      [reflexivity | reflexivity | reflexivity | reflexivity | reflexivity |].
    left. reflexivity.
  - apply (failed_export_is_answered_200
             (serving "backup" "my-project" "my-bucket"
                None None (Some "deadline exceeded") None None)
             (requestBody "backup" "my-project" "my-bucket")
             (request "backup" "my-project" "my-bucket")
             "deadline exceeded");
      [reflexivity | reflexivity | reflexivity | reflexivity | reflexivity |].
    right. split; reflexivity.
Defined.

(** [restore] does the same, under either of its two prefixes. *)
Lemma restore_failure_text (W : World) (r : backupRequest) (s : State) (c : Call) (e : error) :
  In c (skipn (length (calls s)) (calls (snd (restore W r s)))) ->
  call_result c = Some e ->
  exists msg, fst (restore W r s) = Some msg /\ contains e msg.
Proof.
  rewrite restore_spec.
  destruct (client_ImportDocuments W (importRequest r)) as [e1|] eqn:Hsub; cbn.
  - rewrite skipn_app, skipn_all, Nat.sub_diag. cbn.
    intros [<- | []]. cbn. intros [= ->].
    exists ("error restoring firestore database: " ++ e).
    split; [reflexivity | apply contains_suffix].
  - rewrite <- app_assoc, skipn_app, skipn_all, Nat.sub_diag. cbn.
    intros [<- | [<- | []]]; cbn; [discriminate|].
    intros ->. exists ("error backing up firestore database: " ++ e).
    split; [reflexivity | apply contains_suffix].
Qed.

(** ** Delegate or abort *)

(** C8, as stated, fails when the admin client cannot be created: the
    request passes validation, yet nothing is delegated, and the handler did
    not abort on the body, the decoding or the validation. *)
Lemma client_failure_is_neither_delegated_nor_early :
  let W := serving "restore" "my-project" "my-bucket"
             (Some "could not find default credentials") None None None None in
  validate (request "restore" "my-project" "my-bucket") = None /\
  calls (run W) = [CallNewClient (Some "could not find default credentials")] /\
  ~ atomic_as_specified W.
Proof.
  cbv zeta. split; [reflexivity|]. split; [reflexivity|].
  intros [(b & req & Hread & Hparse & _ & Hdel) | [Hearly _]].
  - cbn in Hread. injection Hread as <-.
    vm_compute in Hparse. injection Hparse as <-.
    vm_compute in Hdel. discriminate Hdel.
  - vm_compute in Hearly. now apply Hearly.
Qed.

(** C8 (amended): every run either belongs to a request that passed
    validation and for which the client was created, and then, when the
    action is "restore", carries the whole delegation (the import submitted
    once and awaited when the submission succeeded) and nothing else; or the
    handler aborted, on a body-read failure, a decoding failure, a
    validation failure or a failure to create the client, before any export
    or import call.  Nothing is said here of a validated "backup" request
    once its client exists. *)
Theorem handler_delegates_or_aborts (W : World) :
  (exists b req,
      io_ReadAll W = inr b /\ json_Unmarshal W b = inr req /\
      validate req = None /\
      apiv1_NewFirestoreAdminClient W = None /\
      (Action req = "restore" ->
       transfers (calls (run W)) = delegation W req))
  \/ ((aborts_early W \/ apiv1_NewFirestoreAdminClient W <> None)
      /\ transfers (calls (run W)) = []).
Proof.
  unfold aborts_early.
  destruct (run_outcome W) as
    [e Hr | b e Hr Hp | b req e Hr Hp Hv | b req e Hr Hp Hv Hc
     | b req Hr Hp Hv Hc Ha | b req e Hr Hp Hv Hc Ha Hs
     | b req e Hr Hp Hv Hc Ha Hs Hw | b req Hr Hp Hv Hc Ha Hs Hw].
  - right. rewrite Hr. split; [left; exact I | reflexivity].
  - right. rewrite Hr, Hp. split; [left; exact I | reflexivity].
  - right. rewrite Hr, Hp, Hv. split; [left; discriminate | reflexivity].
  - right. rewrite Hc. split; [right; discriminate | reflexivity].
  - left. exists b, req. repeat split; try assumption. congruence.
  - left. exists b, req. repeat split; try assumption.
    intros _. unfold delegation. rewrite Ha. cbn. now rewrite Hs.
  - left. exists b, req. repeat split; try assumption.
    intros _. unfold delegation. rewrite Ha. cbn. now rewrite Hs, Hw.
  - left. exists b, req. repeat split; try assumption.
    intros _. unfold delegation. rewrite Ha. cbn. now rewrite Hs, Hw.
Qed.

(** ** The second bucket check *)

(** C9: [validate] never returns "bucket is required when action is backup":
    it returns [nil] or one of the four earlier messages, and an empty
    bucket is reported by the earlier check (or by the project check before
    it). *)
Theorem validate_never_rechecks_bucket (r : backupRequest) :
  validate r <> Some "bucket is required when action is backup"
  /\ In (validate r)
       [None; Some "project is required"; Some "bucket is required";
        Some "action is required";
        Some "action must be either backup or restore"]
  /\ ((Bucket r =? "") = false \/
      In (validate r) [Some "project is required"; Some "bucket is required"]).
Proof.
  unfold validate.
  destruct (ProjectId r =? "") eqn:Hp.
  { cbn. split; [discriminate|]. split; [auto | right; auto]. }
  destruct (Bucket r =? "") eqn:Hb.
  { cbn. split; [discriminate|]. split; [auto | right; auto]. }
  destruct (Action r =? "") eqn:Ha.
  { cbn. split; [discriminate|]. split; [auto 6 | left; reflexivity]. }
  destruct (negb (Action r =? "backup") && negb (Action r =? "restore")).
  { cbn. split; [discriminate|]. split; [auto 6 | left; reflexivity]. }
  rewrite andb_false_r.
  cbn. split; [discriminate|]. split; [auto | left; reflexivity].
Qed.

(** ** The message of a failed wait in restore *)

(** C10: for a restore request whose import is submitted successfully and
    whose wait for completion fails with [e], the error [restore] returns is
    "error backing up firestore database: " followed by [e], and the handler
    answers 500 with that text as the body, which thus begins with "error
    backing up firestore database". *)
Theorem restore_wait_failure_says_backing_up
    (W : World) (b : string) (req : backupRequest) (e : error) :
  io_ReadAll W = inr b -> json_Unmarshal W b = inr req ->
  validate req = None -> Action req = "restore" ->
  apiv1_NewFirestoreAdminClient W = None ->
  client_ImportDocuments W (importRequest req) = None ->
  import_op_Wait W (importRequest req) = Some e ->
  (forall s, fst (restore W req s) =
             Some ("error backing up firestore database: " ++ e))
  /\ status (run W) = 500%Z
  /\ body (run W) = "error backing up firestore database: " ++ e
  /\ prefix "error backing up firestore database" (body (run W)) = true.
Proof.
  intros Hread Hparse Hval Hact Hclient Hsub Hwait. split.
  - intros s. rewrite restore_spec, Hsub, Hwait. reflexivity.
  - by_outcome W.
    assert (e0 = e) by congruence. subst e0.
    repeat split.
Qed.

Lemma restore_wait_failure_says_backing_up_witness :
  let W := serving "restore" "my-project" "my-bucket"
             None None None None (Some "deadline exceeded") in
  (forall s, fst (restore W (request "restore" "my-project" "my-bucket") s) =
             Some "error backing up firestore database: deadline exceeded")
  /\ status (run W) = 500%Z
  /\ body (run W) = "error backing up firestore database: deadline exceeded"
  /\ prefix "error backing up firestore database" (body (run W)) = true.
Proof.
  apply (restore_wait_failure_says_backing_up
           (serving "restore" "my-project" "my-bucket"
              None None None None (Some "deadline exceeded"))
           (requestBody "restore" "my-project" "my-bucket")
           (request "restore" "my-project" "my-bucket")
           "deadline exceeded");
    reflexivity.
Defined.

(** * Further properties of the code *)

Lemma exports_app (xs ys : list Call) :
  exports (xs ++ ys) = (exports xs ++ exports ys)%list.
Proof.
  induction xs as [|c xs IH]; [reflexivity|].
  destruct c; cbn; now rewrite IH.
Qed.

Lemma imports_app (xs ys : list Call) :
  imports (xs ++ ys) = (imports xs ++ imports ys)%list.
Proof.
  induction xs as [|c xs IH]; [reflexivity|].
  destruct c; cbn; now rewrite IH.
Qed.

(** The calls a method added to those of the state it started from. *)
Lemma skipn_past (xs ys : list Call) : skipn (length xs) (xs ++ ys) = ys.
Proof. now rewrite skipn_app, skipn_all, Nat.sub_diag. Qed.

Lemma prefix_append (p e : string) : prefix p (p ++ e) = true.
Proof.
  induction p as [|a p IH]; cbn.
  - destruct e; reflexivity.
  - destruct (ascii_dec a a) as [_ | N]; [exact IH | now elim N].
Qed.

(** ** The method [backup] on its own *)

(** X1: whatever the service answers, one call of [backup] submits exactly
    one export, for [projects/P/databases/(default)], the record's
    collections and [gs://B/firestore-backup]; it submits no import, waits
    for the operation exactly when the submission succeeded, and leaves the
    response alone. *)
Theorem backup_submits_one_export (W : World) (r : backupRequest) (s : State) :
  exports (calls (snd (backup W r s))) =
    (exports (calls s) ++
     [ {| ExportDocumentsRequest.Name :=
            "projects/" ++ ProjectId r ++ "/databases/(default)";
          ExportDocumentsRequest.CollectionIds := Collections r;
          ExportDocumentsRequest.OutputUriPrefix :=
            "gs://" ++ Bucket r ++ "/firestore-backup" |} ])%list
  /\ imports (calls (snd (backup W r s))) = imports (calls s)
  /\ ((exists res,
         In (CallExportWait res)
            (skipn (length (calls s)) (calls (snd (backup W r s)))))
      <-> client_ExportDocuments W (exportRequest r) = None)
  /\ resp (snd (backup W r s)) = resp s.
Proof.
  rewrite backup_spec.
  destruct (client_ExportDocuments W (exportRequest r)) as [e|] eqn:Hsub;
    cbn [snd calls resp].
  - rewrite exports_app, imports_app, skipn_past. cbn.
    rewrite app_nil_r. repeat split; try discriminate.
    intros (res & [H | []]). discriminate H.
  - rewrite <- app_assoc, exports_app, imports_app, skipn_past. cbn.
    rewrite app_nil_r. repeat split.
    exists (export_op_Wait W (exportRequest r)). right. left. reflexivity.
Qed.

(** X2: [backup] returns [nil] exactly when both the submission and the
    wait succeeded; every error it returns begins with "error backing up
    firestore database: ". *)
Theorem backup_returns_nil_iff (W : World) (r : backupRequest) (s : State) :
  (fst (backup W r s) = None <->
   client_ExportDocuments W (exportRequest r) = None /\
   export_op_Wait W (exportRequest r) = None)
  /\ (forall msg, fst (backup W r s) = Some msg ->
      prefix "error backing up firestore database: " msg = true).
Proof.
  rewrite backup_spec.
  destruct (client_ExportDocuments W (exportRequest r)) as [e|] eqn:Hsub;
    cbn [fst].
  - split.
    + split; [discriminate | intros [H _]; discriminate H].
    + intros msg [= <-].
        exact (prefix_append "error backing up firestore database: " e).
  - destruct (export_op_Wait W (exportRequest r)) as [e|] eqn:Hwait.
    + split.
      * split; [discriminate | intros [_ H]; discriminate H].
      * intros msg [= <-].
        exact (prefix_append "error backing up firestore database: " e).
    + split.
      * split; auto.
      * discriminate.
Qed.

(** ** The method [restore] on its own *)

(** X3: [restore] returns [nil] exactly when both the submission and the
    wait succeeded; it waits exactly when the submission succeeded, submits
    no export, and leaves the response alone. *)
Theorem restore_returns_nil_iff (W : World) (r : backupRequest) (s : State) :
  (fst (restore W r s) = None <->
   client_ImportDocuments W (importRequest r) = None /\
   import_op_Wait W (importRequest r) = None)
  /\ ((exists res,
         In (CallImportWait res)
            (skipn (length (calls s)) (calls (snd (restore W r s)))))
      <-> client_ImportDocuments W (importRequest r) = None)
  /\ exports (calls (snd (restore W r s))) = exports (calls s)
  /\ resp (snd (restore W r s)) = resp s.
Proof.
  rewrite restore_spec.
  destruct (client_ImportDocuments W (importRequest r)) as [e|] eqn:Hsub;
    cbn [fst snd calls resp].
  - rewrite exports_app, skipn_past. cbn. rewrite app_nil_r.
    repeat split; try discriminate.
    + intros [H _]. discriminate H.
    + intros (res & [H | []]). discriminate H.
  - rewrite <- app_assoc, exports_app, skipn_past. cbn. rewrite app_nil_r.
    destruct (import_op_Wait W (importRequest r)) as [e|] eqn:Hwait;
      repeat split; try discriminate; auto.
    + intros [_ H]. discriminate H.
    + exists (Some e). right. left. reflexivity.
    + exists None. right. left. reflexivity.
Qed.

(** ** What the handler calls, over all runs *)

(** X4: no run of the handler ever submits an export or waits for one,
    whatever the body and whatever the service would answer: the only case
    of the switch that calls [backup] is "back", and [validate] lets no such
    action through. *)
Theorem handler_never_exports (W : World) :
  exports (calls (run W)) = []
  /\ (forall req res, ~ In (CallExportDocuments req res) (calls (run W)))
  /\ (forall res, ~ In (CallExportWait res) (calls (run W))).
Proof.
  destruct (run_outcome W); cbn; (split; [reflexivity|]); split;
    intros; intro Hin;
    repeat (destruct Hin as [Hin | Hin]; [discriminate Hin|]);
    exact Hin.
Qed.

(** X5: the handler never retries and stops at the first failure.  The
    calls of a run are one of five sequences: none; a failed creation of the
    client; a successful creation alone; that followed by a failed import
    submission; or that followed by a successful submission and one wait. *)
Theorem handler_call_sequences (W : World) :
  calls (run W) = []
  \/ (exists e, calls (run W) = [CallNewClient (Some e)])
  \/ calls (run W) = [CallNewClient None]
  \/ (exists q e,
        calls (run W) = [CallNewClient None; CallImportDocuments q (Some e)])
  \/ (exists q res,
        calls (run W) =
          [CallNewClient None; CallImportDocuments q None; CallImportWait res]).
Proof.
  destruct (run_outcome W); cbn; eauto 10.
Qed.

(** X6: the response status is always 200, 400 or 500. *)
Theorem status_is_200_400_or_500 (W : World) :
  In (status (run W)) [200; 400; 500]%Z.
Proof.
  destruct (run_outcome W); cbn; auto.
Qed.

(** The messages [validate] can return. *)
Lemma validate_messages (r : backupRequest) (e : error) :
  validate r = Some e ->
  In e ["project is required"; "bucket is required"; "action is required";
        "action must be either backup or restore"].
Proof.
  unfold validate.
  destruct (ProjectId r =? ""); [intros [= <-]; cbn; auto|].
  destruct (Bucket r =? ""); [intros [= <-]; cbn; auto|].
  destruct (Action r =? ""); [intros [= <-]; cbn; auto|].
  destruct (negb (Action r =? "backup") && negb (Action r =? "restore"));
    [intros [= <-]; cbn; auto|].
  rewrite andb_false_r. discriminate.
Qed.

(** X7: the handler answers 400 exactly when the body was read and decoded
    into a record that [validate] rejects; the body of a 400 response is one
    of the four messages of [validate], and no call was made. *)
Theorem bad_request_iff_validation_fails (W : World) :
  (status (run W) = 400%Z <->
   exists b req e,
     io_ReadAll W = inr b /\ json_Unmarshal W b = inr req /\
     validate req = Some e)
  /\ (status (run W) = 400%Z ->
      In (body (run W))
         ["project is required"; "bucket is required"; "action is required";
          "action must be either backup or restore"]
      /\ calls (run W) = []).
Proof.
  split; [split|].
  - destruct (run_outcome W); cbn; intros Hst; try discriminate Hst.
    exists b, req, e. auto.
  - intros (b & req & e & Hread & Hparse & Hval). by_outcome W. reflexivity.
  - destruct (run_outcome W); cbn; intros Hst; try discriminate Hst.
    split; [|reflexivity].
    now apply (validate_messages req).
Qed.

(** X8: the handler answers 200 exactly when the body decoded into a record
    that passes validation and no call made during the run failed; a 200
    response has an empty body. *)
Theorem ok_iff_valid_and_no_call_failed (W : World) :
  (status (run W) = 200%Z <->
   (exists b req,
      io_ReadAll W = inr b /\ json_Unmarshal W b = inr req /\
      validate req = None)
   /\ (forall c, In c (calls (run W)) -> call_result c = None))
  /\ (status (run W) = 200%Z -> body (run W) = "").
Proof.
  split; [split|].
  - destruct (run_outcome W); cbn; intros Hst; try discriminate Hst.
    + split; [exists b, req; auto|].
      intros c [<- | []]. reflexivity.
    + split; [exists b, req; auto|].
      intros c [<- | [<- | [<- | []]]]; reflexivity.
  - intros [(b & req & Hread & Hparse & Hval) Hall]. revert Hall.
    by_outcome W; intros Hall; try reflexivity; exfalso.
    + pose proof (Hall _ (or_introl eq_refl)) as X. discriminate X.
    + pose proof (Hall _ (or_intror (or_introl eq_refl))) as X. discriminate X.
    + pose proof (Hall _ (or_intror (or_intror (or_introl eq_refl)))) as X.
      discriminate X.
  - destruct (run_outcome W); cbn; intros Hst; try discriminate Hst;
      reflexivity.
Qed.

(** ** Two more failures, at the handler *)

(** X9: for a request that passes validation, of either action, when the
    admin client cannot be created with error [e], the handler answers 500
    with exactly [e] as the body, and the failed creation is the only call
    of the run. *)
Theorem client_failure_is_internal_error
    (W : World) (b : string) (req : backupRequest) (e : error) :
  io_ReadAll W = inr b -> json_Unmarshal W b = inr req ->
  validate req = None ->
  apiv1_NewFirestoreAdminClient W = Some e ->
  status (run W) = 500%Z /\ body (run W) = e
  /\ calls (run W) = [CallNewClient (Some e)].
Proof.
  intros Hread Hparse Hval Hclient.
  by_outcome W.
  assert (e0 = e) by congruence. subst e0. repeat split.
Qed.

Lemma client_failure_is_internal_error_witness :
  let W := serving "backup" "my-project" "my-bucket"
             (Some "could not find default credentials") None None None None in
  status (run W) = 500%Z
  /\ body (run W) = "could not find default credentials"
  /\ calls (run W) = [CallNewClient (Some "could not find default credentials")].
Proof.
  apply (client_failure_is_internal_error
           (serving "backup" "my-project" "my-bucket"
              (Some "could not find default credentials") None None None None)
           (requestBody "backup" "my-project" "my-bucket")
           (request "backup" "my-project" "my-bucket")
           "could not find default credentials");
    reflexivity.
Defined.

(** X10: for a restore request that passes validation and whose client is
    created, when the submission of the import fails with [e], the handler
    answers 500 with "error restoring firestore database: " followed by [e],
    and makes no wait: the failed submission is the last call of the run. *)
Theorem restore_submission_failure_says_restoring
    (W : World) (b : string) (req : backupRequest) (e : error) :
  io_ReadAll W = inr b -> json_Unmarshal W b = inr req ->
  validate req = None -> Action req = "restore" ->
  apiv1_NewFirestoreAdminClient W = None ->
  client_ImportDocuments W (importRequest req) = Some e ->
  status (run W) = 500%Z
  /\ body (run W) = "error restoring firestore database: " ++ e
  /\ calls (run W) =
       [CallNewClient None; CallImportDocuments (importRequest req) (Some e)].
Proof.
  intros Hread Hparse Hval Hact Hclient Hsub.
  by_outcome W.
  assert (e0 = e) by congruence. subst e0. repeat split.
Qed.

Lemma restore_submission_failure_says_restoring_witness :
  let W := serving "restore" "my-project" "my-bucket"
             None None None (Some "permission denied") None in
  status (run W) = 500%Z
  /\ body (run W) = "error restoring firestore database: permission denied"
  /\ calls (run W) =
       [CallNewClient None;
        CallImportDocuments
          (importRequest (request "restore" "my-project" "my-bucket"))
          (Some "permission denied")].
Proof.
  apply (restore_submission_failure_says_restoring
           (serving "restore" "my-project" "my-bucket"
              None None None (Some "permission denied") None)
           (requestBody "restore" "my-project" "my-bucket")
           (request "restore" "my-project" "my-bucket")
           "permission denied");
    reflexivity.
Defined.

(** ** What [validate] accepts *)

(** X11: [validate] returns [nil] exactly for the records whose project and
    bucket are non-empty and whose action is "backup" or "restore"; the
    collection list plays no part. *)
Theorem validate_accepts_iff (r : backupRequest) :
  validate r = None <->
  ProjectId r <> "" /\ Bucket r <> "" /\
  (Action r = "backup" \/ Action r = "restore").
Proof.
  split.
  - apply validate_accepts.
  - intros (Hp & Hb & Ha). now apply validate_complete.
Qed.

(** ** The requests the two methods build *)

Lemma string_length_append (s t : string) :
  String.length (s ++ t) = String.length s + String.length t.
Proof. induction s as [|a s IH]; cbn; [reflexivity | now rewrite IH]. Qed.

Lemma append_cancel_l (p s t : string) : p ++ s = p ++ t -> s = t.
Proof.
  induction p as [|a p IH]; cbn; [trivial|].
  intros [= H]. now apply IH.
Qed.

Lemma append_cancel_r (s t u : string) : s ++ u = t ++ u -> s = t.
Proof.
  revert t. induction s as [|a s IH]; intros [|b t] H; cbn in H.
  - reflexivity.
  - apply (f_equal String.length) in H. cbn in H.
    rewrite string_length_append in H. lia.
  - apply (f_equal String.length) in H. cbn in H.
    rewrite string_length_append in H. lia.
  - injection H as -> H. f_equal. now apply IH.
Qed.

Lemma resourceName_inj (p q : string) :
  resourceName p = resourceName q -> p = q.
Proof.
  unfold resourceName. intros H.
  apply append_cancel_l in H. now apply append_cancel_r in H.
Qed.

Lemma backupUri_inj (b c : string) : backupUri b = backupUri c -> b = c.
Proof.
  unfold backupUri. intros H.
  apply append_cancel_l in H. now apply append_cancel_r in H.
Qed.

(** X12: the import request [restore] submits determines the project, the
    bucket and the collections of the record: two records that differ in
    one of them never lead to the same import request. *)
Theorem import_request_determines_record
    (W1 W2 : World) (r1 r2 : backupRequest) :
  imports (calls (snd (restore W1 r1 initial))) =
  imports (calls (snd (restore W2 r2 initial))) ->
  ProjectId r1 = ProjectId r2 /\ Bucket r1 = Bucket r2 /\
  Collections r1 = Collections r2.
Proof.
  rewrite !restore_spec.
  assert (Hreq : importRequest r1 = importRequest r2 ->
                 ProjectId r1 = ProjectId r2 /\ Bucket r1 = Bucket r2 /\
                 Collections r1 = Collections r2).
  { intros H.
    pose proof (f_equal ImportDocumentsRequest.Name H) as Hn.
    pose proof (f_equal ImportDocumentsRequest.CollectionIds H) as Hc.
    pose proof (f_equal ImportDocumentsRequest.InputUriPrefix H) as Hu.
    apply resourceName_inj in Hn. apply backupUri_inj in Hu. auto. }
  destruct (client_ImportDocuments W1 (importRequest r1)),
           (client_ImportDocuments W2 (importRequest r2));
    cbn [snd calls initial app imports]; intros H; apply Hreq; congruence.
Qed.

Lemma import_request_determines_record_witness :
  ProjectId (request "restore" "my-project" "my-bucket") = "my-project"
  /\ Bucket (request "restore" "my-project" "my-bucket") = "my-bucket"
  /\ Collections (request "restore" "my-project" "my-bucket") =
     ["users"; "orders"].
Proof.
  apply (import_request_determines_record
           (serving "restore" "my-project" "my-bucket" None None None None None)
           (serving "restore" "my-project" "my-bucket"
              None None None (Some "permission denied") None)
           (request "restore" "my-project" "my-bucket")
           {| Action := "restore"; Collections := ["users"; "orders"];
              ProjectId := "my-project"; Bucket := "my-bucket" |}).
  reflexivity.
Defined.

(** X13: the same holds of the export request [backup] submits. *)
Theorem export_request_determines_record
    (W1 W2 : World) (r1 r2 : backupRequest) :
  exports (calls (snd (backup W1 r1 initial))) =
  exports (calls (snd (backup W2 r2 initial))) ->
  ProjectId r1 = ProjectId r2 /\ Bucket r1 = Bucket r2 /\
  Collections r1 = Collections r2.
Proof.
  rewrite !backup_spec.
  assert (Hreq : exportRequest r1 = exportRequest r2 ->
                 ProjectId r1 = ProjectId r2 /\ Bucket r1 = Bucket r2 /\
                 Collections r1 = Collections r2).
  { intros H.
    pose proof (f_equal ExportDocumentsRequest.Name H) as Hn.
    pose proof (f_equal ExportDocumentsRequest.CollectionIds H) as Hc.
    pose proof (f_equal ExportDocumentsRequest.OutputUriPrefix H) as Hu.
    apply resourceName_inj in Hn. apply backupUri_inj in Hu. auto. }
  destruct (client_ExportDocuments W1 (exportRequest r1)),
           (client_ExportDocuments W2 (exportRequest r2));
    cbn [snd calls initial app exports]; intros H; apply Hreq; congruence.
Qed.

Lemma export_request_determines_record_witness :
  ProjectId (request "backup" "my-project" "my-bucket") = "my-project"
  /\ Bucket (request "backup" "my-project" "my-bucket") = "my-bucket"
  /\ Collections (request "backup" "my-project" "my-bucket") =
     ["users"; "orders"].
Proof.
  apply (export_request_determines_record
           (serving "backup" "my-project" "my-bucket" None None None None None)
           (serving "backup" "my-project" "my-bucket"
              None (Some "permission denied") None None None)
           (request "backup" "my-project" "my-bucket")
           {| Action := "backup"; Collections := ["users"; "orders"];
              ProjectId := "my-project"; Bucket := "my-bucket" |}).
  reflexivity.
Defined.

(** X14: a restore reads from where a backup wrote.  For two records with
    the same project, bucket and collections, the export that [backup]
    submits for one and the import that [restore] submits for the other
    name the same database, the same collections and the same storage
    URI. *)
Theorem backup_and_restore_share_location
    (W : World) (r1 r2 : backupRequest) :
  ProjectId r1 = ProjectId r2 -> Bucket r1 = Bucket r2 ->
  Collections r1 = Collections r2 ->
  exists ex im,
    exports (calls (snd (backup W r1 initial))) = [ex]
    /\ imports (calls (snd (restore W r2 initial))) = [im]
    /\ ExportDocumentsRequest.Name ex = ImportDocumentsRequest.Name im
    /\ ExportDocumentsRequest.CollectionIds ex =
       ImportDocumentsRequest.CollectionIds im
    /\ ExportDocumentsRequest.OutputUriPrefix ex =
       ImportDocumentsRequest.InputUriPrefix im.
Proof.
  intros Hp Hb Hc.
  exists (exportRequest r1), (importRequest r2).
  rewrite backup_spec, restore_spec.
  destruct (client_ExportDocuments W (exportRequest r1)),
           (client_ImportDocuments W (importRequest r2));
    cbn [snd calls initial app exports imports];
    unfold exportRequest, importRequest;
    cbn [ExportDocumentsRequest.Name ExportDocumentsRequest.CollectionIds
         ExportDocumentsRequest.OutputUriPrefix
         ImportDocumentsRequest.Name ImportDocumentsRequest.CollectionIds
         ImportDocumentsRequest.InputUriPrefix];
    rewrite Hp, Hb, Hc; repeat split.
Qed.

Lemma backup_and_restore_share_location_witness :
  let W := serving "restore" "my-project" "my-bucket" None None None None None in
  exists ex im,
    exports (calls (snd (backup W (request "backup" "my-project" "my-bucket")
                           initial))) = [ex]
    /\ imports (calls (snd (restore W (request "restore" "my-project" "my-bucket")
                              initial))) = [im]
    /\ ExportDocumentsRequest.Name ex = ImportDocumentsRequest.Name im
    /\ ExportDocumentsRequest.CollectionIds ex =
       ImportDocumentsRequest.CollectionIds im
    /\ ExportDocumentsRequest.OutputUriPrefix ex =
       ImportDocumentsRequest.InputUriPrefix im.
Proof.
  apply (backup_and_restore_share_location
           (serving "restore" "my-project" "my-bucket" None None None None None)
           (request "backup" "my-project" "my-bucket")
           (request "restore" "my-project" "my-bucket"));
    reflexivity.
Defined.

(** ** What a 200 means for a restore *)

(** X15: for a restore request that passes validation, the handler answers
    200 exactly when the client was created, the import was submitted and
    the wait for it succeeded; the run then consists of these three calls,
    and the body is empty. *)
Theorem restore_ok_iff_import_completed
    (W : World) (b : string) (req : backupRequest) :
  io_ReadAll W = inr b -> json_Unmarshal W b = inr req ->
  validate req = None -> Action req = "restore" ->
  (status (run W) = 200%Z <->
   apiv1_NewFirestoreAdminClient W = None /\
   client_ImportDocuments W (importRequest req) = None /\
   import_op_Wait W (importRequest req) = None)
  /\ (status (run W) = 200%Z ->
      calls (run W) =
        [CallNewClient None; CallImportDocuments (importRequest req) None;
         CallImportWait None]
      /\ body (run W) = "").
Proof.
  intros Hread Hparse Hval Hact.
  by_outcome W; (split; [split|]); cbn; intros Hst;
    try discriminate Hst;
    try (destruct Hst as (X1 & X2 & X3); congruence);
    repeat split; assumption.
Qed.

Lemma restore_ok_iff_import_completed_witness :
  let W := serving "restore" "my-project" "my-bucket" None None None None None in
  (status (run W) = 200%Z <->
   apiv1_NewFirestoreAdminClient W = None /\
   client_ImportDocuments W
     (importRequest (request "restore" "my-project" "my-bucket")) = None /\
   import_op_Wait W
     (importRequest (request "restore" "my-project" "my-bucket")) = None)
  /\ (status (run W) = 200%Z ->
      calls (run W) =
        [CallNewClient None;
         CallImportDocuments
           (importRequest (request "restore" "my-project" "my-bucket")) None;
         CallImportWait None]
      /\ body (run W) = "").
Proof.
  apply (restore_ok_iff_import_completed
           (serving "restore" "my-project" "my-bucket" None None None None None)
           (requestBody "restore" "my-project" "my-bucket")
           (request "restore" "my-project" "my-bucket"));
    reflexivity.
Defined.
